(** * The travel-agent MCP server ([mcp_server.py]): tool registry and dispatch

    A shallow embedding of [_default_state], [_flight_lookup],
    [_invoke_graph], [list_tools] and [call_tool], over a model of the
    Python values these functions handle, of [json.dumps(..., indent=2)]
    and of [str.encode("utf-8")].  The two collaborators ([graph.invoke]
    and [serp_search]) are not part of the module: calls to them are
    nodes of a program tree, and an interpreter runs a tree against any
    pair of collaborators while logging every call. *)

From Stdlib Require Import ZArith NArith Ascii String List DecimalString.
From Stdlib.Strings Require Import Byte.
From stdpp Require Import base option list strings gmap.

Local Open Scope string_scope.
Local Open Scope list_scope.

(** String append is unfolded by [simpl] on a string that starts with a
    character, as list append is. *)
#[local] Arguments String.append !_ _ / : simpl nomatch.

(** ** Python values *)

(** The values that travel through the server.  A [str] is a sequence of
    code points; here a code point is an [ascii], so strings range over
    the code points 0..255.  A [dict] keeps insertion order (which
    [json.dumps] follows) and has [str] keys, as [Dict[str, Any]] says.
    [VObj cls truth text] is an instance of any class that [json] cannot
    encode: the server only ever observes its class name (in the
    [TypeError] of [json.dumps]), its truth value and its text, which
    stands for both [str] and [repr] of the object (as for a class with
    no [__str__] of its own).  Floats, tuples and dicts with other keys
    than strings are left out. *)
#[local] Unset Elimination Schemes.
Inductive value : Type :=
| VNone
| VBool (b : bool)
| VInt (n : Z)
| VStr (s : string)
| VList (items : list value)
| VDict (entries : list (string * value))
| VObj (cls : string) (truth : bool) (text : string).
#[local] Set Elimination Schemes.

Abbreviation pydict := (list (string * value)).

(** Exceptions raised in the module, or by a collaborator. *)
Inductive exn : Type :=
| KeyError (key : string)
| TypeError (msg : string)
| ToolError (msg : string)
| CollaboratorError (detail : string).

(** [bool(v)]: the truth value tested by [if v:] and by [v or w]. *)
Definition truthy (v : value) : bool :=
  match v with
  | VNone => false
  | VBool b => b
  | VInt n => negb (n =? 0)%Z
  | VStr s => negb (String.eqb s "")
  | VList items => match items with [] => false | _ :: _ => true end
  | VDict entries => match entries with [] => false | _ :: _ => true end
  | VObj _ truth _ => truth
  end.

(** [a or b] *)
Definition py_or (a b : value) : value := if truthy a then a else b.

(** [d.get(key)] without the default: [None] here is an absent key. *)
Fixpoint dict_lookup (d : pydict) (key : string) : option value :=
  match d with
  | [] => None
  | (k, v) :: rest => if String.eqb k key then Some v else dict_lookup rest key
  end.

(** [d.get(key)], whose default is Python's [None]. *)
Definition dict_get (d : pydict) (key : string) : value :=
  default VNone (dict_lookup d key).

(** [d[key] = v]: the value of a key that is there is replaced where
    it stands, a new key goes to the end. *)
Fixpoint dict_set (d : pydict) (key : string) (v : value) : pydict :=
  match d with
  | [] => [(key, v)]
  | (k, x) :: rest =>
      if String.eqb k key then (k, v) :: rest
      else (k, x) :: dict_set rest key v
  end.

(** [sep.join(parts)] *)
Fixpoint str_join (sep : string) (parts : list string) : string :=
  match parts with
  | [] => ""
  | [p] => p
  | p :: rest => p +:+ sep +:+ str_join sep rest
  end.

(** What follows the first of the joined chunks: nothing but the tail
    when it was the last one, a separator and the rest otherwise. *)
Definition join_rest (sep : string) (chunks : list string) (tail : string)
  : string :=
  match chunks with
  | [] => tail
  | _ :: _ => sep +:+ str_join sep chunks +:+ tail
  end.

(** [indent * level] of the encoder, a run of [n] copies of [s]. *)
Fixpoint str_repeat (s : string) (n : nat) : string :=
  match n with
  | O => ""
  | S n' => s +:+ str_repeat s n'
  end.

(** [int.__repr__], in decimal.  (The bound that CPython puts on the
    number of digits of this conversion is not modelled.) *)
Definition int_repr (n : Z) : string := NilZero.string_of_int (Z.to_int n).

Definition hex_digit (n : N) : ascii :=
  if (n <? 10)%N then ascii_of_N (48 + n) else ascii_of_N (87 + n).

(** ['%02x' % c] *)
Definition hex2 (c : ascii) : string :=
  let n := N_of_ascii c in
  String (hex_digit (n / 16)) (String (hex_digit (n mod 16)) "").

(** The double quote character. *)
Definition dquote : ascii := "034"%char.

Definition char_in (c : ascii) (s : string) : bool :=
  existsb (Ascii.eqb c) (list_ascii_of_string s).

(** [str.isprintable] on one code point below 256. *)
Definition isprintable (c : ascii) : bool :=
  let n := N_of_ascii c in
  ((32 <=? n) && (n <? 127) || (161 <=? n) && negb (n =? 173))%N.

(** One character of [repr(s)], for the quote that [repr] chose. *)
Definition repr_char (quote c : ascii) : string :=
  if Ascii.eqb c quote || Ascii.eqb c "\"%char then String "\" (String c "")
  else if Ascii.eqb c "009"%char then "\t"
  else if Ascii.eqb c "010"%char then "\n"
  else if Ascii.eqb c "013"%char then "\r"
  else if isprintable c then String c ""
  else "\x" +:+ hex2 c.

(** [repr(s)] for a [str]: single quotes unless [s] has a single quote
    and no double quote. *)
Definition str_repr (s : string) : string :=
  let quote := if char_in "'"%char s && negb (char_in dquote s)
               then dquote else "'"%char in
  String quote
    (String.concat "" (map (repr_char quote) (list_ascii_of_string s))
     +:+ String quote "").

(** [repr(v)] *)
Fixpoint py_repr (v : value) : string :=
  match v with
  | VNone => "None"
  | VBool true => "True"
  | VBool false => "False"
  | VInt n => int_repr n
  | VStr s => str_repr s
  | VList items => "[" +:+ str_join ", " (map py_repr items) +:+ "]"
  | VDict entries =>
      "{" +:+ str_join ", "
               (map (fun kv => str_repr (fst kv) +:+ ": " +:+ py_repr (snd kv))
                    entries) +:+ "}"
  | VObj _ _ text => text
  end.

(** [str(v)], which is also what [f"{v}"] inserts: a [str] is inserted
    as it is, every other value by its [repr]. *)
Definition py_str (v : value) : string :=
  match v with
  | VStr s => s
  | _ => py_repr v
  end.

(** ** [json.dumps(obj, indent=2)] and [str.encode("utf-8")] *)

(** What code that may raise ends with: an exception or a value. *)
Definition outcome (A : Type) : Type := exn + A.

(** Run [f] over a list from left to right and stop at the first
    exception, as the encoder does over the items of a container. *)
Definition traverse {A B : Type} (f : A -> outcome B) : list A -> outcome (list B) :=
  fix go (l : list A) : outcome (list B) :=
    match l with
    | [] => inr []
    | x :: rest =>
        match f x with
        | inl e => inl e
        | inr y => match go rest with
                   | inl e => inl e
                   | inr ys => inr (y :: ys)
                   end
        end
    end.

(** ['\\u{0:04x}'.format(c)] for a code point below 256. *)
Definition json_u_escape (c : ascii) : string := "\u00" +:+ hex2 c.

(** One character of a JSON string under [ensure_ascii=True]: the
    table [ESCAPE_DCT] of [json.encoder], and a [\u] escape for every
    other character outside the range from space to tilde. *)
Definition json_char (c : ascii) : string :=
  if Ascii.eqb c "\"%char then "\\"
  else if Ascii.eqb c dquote then String "\" (String dquote "")
  else if Ascii.eqb c "008"%char then "\b"
  else if Ascii.eqb c "012"%char then "\f"
  else if Ascii.eqb c "010"%char then "\n"
  else if Ascii.eqb c "013"%char then "\r"
  else if Ascii.eqb c "009"%char then "\t"
  else let n := N_of_ascii c in
       if ((32 <=? n) && (n <=? 126))%N then String c "" else json_u_escape c.

(** [py_encode_basestring_ascii] *)
Definition json_str (s : string) : string :=
  String dquote
    (String.concat "" (map json_char (list_ascii_of_string s))
     +:+ String dquote "").

#[local] Arguments json_str : simpl never.

(** ['\n' + indent * level], with [indent] two spaces. *)
Definition newline_indent (level : nat) : string :=
  String "010" (str_repeat "  " level).

(** One item of a [dict]: the key as a JSON string, a colon and a
    space, and the value as [encode] renders it. *)
Definition json_item (encode : value -> outcome string) (item : string * value)
  : outcome string :=
  let '(k, x) := item in
  match encode x with
  | inl e => inl e
  | inr chunk => inr (json_str k +:+ ": " +:+ chunk)
  end.

(** The encoder at nesting depth [level].  An empty container is [[]]
    or [{}]; a non-empty one puts each item on a line of its own, one
    level deeper, items separated by a comma, a key and its value by a
    colon and a space.  A value of no JSON type raises [TypeError]. *)
Fixpoint json_encode (level : nat) (v : value) : outcome string :=
  match v with
  | VNone => inr "null"
  | VBool true => inr "true"
  | VBool false => inr "false"
  | VInt n => inr (int_repr n)
  | VStr s => inr (json_str s)
  | VList [] => inr "[]"
  | VList items =>
      match traverse (json_encode (S level)) items with
      | inl e => inl e
      | inr chunks =>
          inr ("[" +:+ newline_indent (S level)
               +:+ str_join ("," +:+ newline_indent (S level)) chunks
               +:+ newline_indent level +:+ "]")
      end
  | VDict [] => inr "{}"
  | VDict entries =>
      match traverse (json_item (json_encode (S level))) entries with
      | inl e => inl e
      | inr chunks =>
          inr ("{" +:+ newline_indent (S level)
               +:+ str_join ("," +:+ newline_indent (S level)) chunks
               +:+ newline_indent level +:+ "}")
      end
  | VObj cls _ _ =>
      inl (TypeError ("Object of type " +:+ cls +:+ " is not JSON serializable"))
  end.

(** [json.dumps(obj, indent=2)] *)
Definition json_dumps (obj : value) : outcome string := json_encode 0 obj.

(** UTF-8 for one code point below 256: one byte below 128, two above. *)
Definition utf8_char (c : ascii) : list byte :=
  let n := N_of_ascii c in
  if (n <? 128)%N then [byte_of_ascii c]
  else [byte_of_ascii (ascii_of_N (192 + n / 64));
        byte_of_ascii (ascii_of_N (128 + n mod 64))].

(** [s.encode("utf-8")] *)
Definition encode_utf8 (s : string) : list byte :=
  flat_map utf8_char (list_ascii_of_string s).

(** ** The protocol types used by the server ([mcp_types]) *)

Module mcp_types.

(** [JSONSchema(type=..., description=..., properties=..., required=...)];
    a keyword that a call leaves out is [None]. *)
#[local] Unset Elimination Schemes.
Inductive JSONSchema : Type :=
| mkJSONSchema (type : string) (description : option string)
               (properties : option (list (string * JSONSchema)))
               (required : option (list string)).
#[local] Set Elimination Schemes.

Definition schema_type (s : JSONSchema) : string :=
  match s with mkJSONSchema t _ _ _ => t end.
Definition schema_properties (s : JSONSchema) : list (string * JSONSchema) :=
  match s with mkJSONSchema _ _ ps _ => default [] ps end.
Definition schema_required (s : JSONSchema) : list string :=
  match s with mkJSONSchema _ _ _ r => default [] r end.

Record Tool : Type := mkTool {
  name : string;
  description : string;
  input_schema : JSONSchema
}.

(** [TextContent(text=...)] and [BlobContent(data=..., media_type=...,
    filename=...)].  The text is whatever value the server passes. *)
Inductive Content : Type :=
| TextContent (text : value)
| BlobContent (data : list byte) (media_type filename : string).

Record ToolResponse : Type := mkToolResponse { content : list Content }.

End mcp_types.

(** ** Programs that call the collaborators *)

(** A handler is a tree: it returns, raises, or calls one of the two
    collaborators and goes on with what the collaborator returned.
    [GraphInvoke state k] is [graph.invoke(state)], which returns the
    result mapping; [SerpSearch query engine k] is
    [serp_search(query, engine=engine)].  A call made through
    [asyncio.to_thread] and awaited is the same node: within one tool
    call the stages run one after the other. *)
Inductive prog (A : Type) : Type :=
| Ret (a : A)
| Raise (e : exn)
| GraphInvoke (state : pydict) (k : pydict -> prog A)
| SerpSearch (query engine : string) (k : value -> prog A).

Arguments Ret {A} a.
Arguments Raise {A} e.
Arguments GraphInvoke {A} state k.
Arguments SerpSearch {A} query engine k.

Fixpoint bind {A B : Type} (p : prog A) (f : A -> prog B) : prog B :=
  match p with
  | Ret a => f a
  | Raise e => Raise e
  | GraphInvoke state k => GraphInvoke state (fun r => bind (k r) f)
  | SerpSearch query engine k => SerpSearch query engine (fun r => bind (k r) f)
  end.

Notation "x <- p ;; q" := (bind p (fun x => q))
  (at level 100, p at next level, right associativity).

(** A computation without collaborators, inside a handler. *)
Definition lift {A : Type} (r : outcome A) : prog A :=
  match r with
  | inl e => Raise e
  | inr a => Ret a
  end.

(** [arguments[key]] on the argument mapping of a call. *)
Definition getitem (arguments : gmap string value) (key : string) : prog value :=
  match arguments !! key with
  | Some v => Ret v
  | None => Raise (KeyError key)
  end.

(** [arguments.get(key)] *)
Definition args_get (arguments : gmap string value) (key : string) : value :=
  default VNone (arguments !! key).

(** [d[key]] on a mapping built by the server. *)
Definition dict_getitem (d : pydict) (key : string) : prog value :=
  match dict_lookup d key with
  | Some v => Ret v
  | None => Raise (KeyError key)
  end.

(** The collaborators, over any state [W] of theirs: each call may
    change that state, and returns or raises. *)
Record collaborators (W : Type) : Type := mkCollaborators {
  graph_invoke : pydict -> W -> W * outcome pydict;
  serp_search : string -> string -> W -> W * outcome value
}.

Arguments graph_invoke {W} _ _ _.
Arguments serp_search {W} _ _ _.

(** A call made to a collaborator, with its arguments. *)
Inductive event : Type :=
| InvokeCall (state : pydict)
| SearchCall (query engine : string).

(** Run a handler against the collaborators [c] from their state [w]:
    the final state, the calls made in order, and the outcome.  An
    exception of a collaborator ends the handler with that exception. *)
Fixpoint run {W A : Type} (c : collaborators W) (p : prog A) (w : W)
  : W * list event * outcome A :=
  match p with
  | Ret a => (w, [], inr a)
  | Raise e => (w, [], inl e)
  | GraphInvoke state k =>
      match graph_invoke c state w with
      | (w1, inl e) => (w1, [InvokeCall state], inl e)
      | (w1, inr r) =>
          let '(w2, calls, out) := run c (k r) w1 in
          (w2, InvokeCall state :: calls, out)
      end
  | SerpSearch query engine k =>
      match serp_search c query engine w with
      | (w1, inl e) => (w1, [SearchCall query engine], inl e)
      | (w1, inr r) =>
          let '(w2, calls, out) := run c (k r) w1 in
          (w2, SearchCall query engine :: calls, out)
      end
  end.

(** ** The server ([mcp_server.py]) *)

(** [_default_state(question)]: the baseline graph state of a request. *)
Definition _default_state (question : value) : pydict :=
  [ ("messages", VList [VDict [("role", VStr "user"); ("content", question)]]);
    ("user_question", question);
    ("google_results", VNone);
    ("bing_results", VNone);
    ("reddit_results", VNone);
    ("selected_reddit_urls", VNone);
    ("reddit_post_data", VNone);
    ("google_analysis", VNone);
    ("bing_analysis", VNone);
    ("reddit_analysis", VNone);
    ("final_answer", VNone) ].

(** The query of [_flight_lookup] (its lines from [query_parts = ...] to
    [query = " ".join(query_parts)]), from the four values read off the
    arguments. *)
Definition flight_query (origin destination depart_date return_date : value)
  : string :=
  let query_parts :=
    ["flights from " +:+ py_str origin +:+ " to " +:+ py_str destination] in
  let query_parts :=
    if truthy depart_date
    then query_parts ++ ["on " +:+ py_str depart_date] else query_parts in
  let query_parts :=
    if truthy return_date
    then query_parts ++ ["return " +:+ py_str return_date] else query_parts in
  str_join " " query_parts.

(** [_flight_lookup(arguments)] *)
Definition _flight_lookup (arguments : gmap string value) : prog pydict :=
  origin <- getitem arguments "origin" ;;
  destination <- getitem arguments "destination" ;;
  let depart_date := args_get arguments "depart_date" in
  let return_date := args_get arguments "return_date" in
  let query := flight_query origin destination depart_date return_date in
  search_results <- SerpSearch query "google" Ret ;;
  Ret [("query", VStr query); ("results", search_results)].

(** [_invoke_graph(question)] *)
Definition _invoke_graph (question : value) : prog pydict :=
  let state := _default_state question in
  GraphInvoke state Ret.

(** [list_tools()] *)
Definition list_tools : prog (list mcp_types.Tool) :=
  Ret
    [ mcp_types.mkTool
        "travel.plan_trip"
        "Run the full travel research agent and return a synthesized itinerary."
        (mcp_types.mkJSONSchema "object" None
           (Some [("question",
                   mcp_types.mkJSONSchema "string" (Some "User travel request")
                     None None)])
           (Some ["question"]));
      mcp_types.mkTool
        "travel.search_flights"
        ("Perform a targeted flight availability search using Bright Data SERP."
         +:+ " Returns the parsed search response for downstream tooling.")
        (mcp_types.mkJSONSchema "object" None
           (Some [("origin",
                   mcp_types.mkJSONSchema "string" (Some "IATA origin code")
                     None None);
                  ("destination",
                   mcp_types.mkJSONSchema "string"
                     (Some "IATA destination code") None None);
                  ("depart_date",
                   mcp_types.mkJSONSchema "string"
                     (Some "YYYY-MM-DD departure date") None None);
                  ("return_date",
                   mcp_types.mkJSONSchema "string"
                     (Some "Optional return date") None None)])
           (Some ["origin"; "destination"])) ].

(** [call_tool(name, arguments)] *)
Definition call_tool (name : string) (arguments : gmap string value)
  : prog mcp_types.ToolResponse :=
  if String.eqb name "travel.plan_trip" then
    question <- getitem arguments "question" ;;
    result <- _invoke_graph question ;;
    let final_answer :=
      py_or (dict_get result "final_answer") (VStr "No response produced.") in
    payload <- lift (json_dumps (VDict result)) ;;
    Ret (mcp_types.mkToolResponse
           [ mcp_types.TextContent final_answer;
             mcp_types.BlobContent (encode_utf8 payload)
               "application/json" "plan_trip.json" ])
  else if String.eqb name "travel.search_flights" then
    flight_payload <- _flight_lookup arguments ;;
    summary <- dict_getitem flight_payload "query" ;;
    payload <- lift (json_dumps (VDict flight_payload)) ;;
    Ret (mcp_types.mkToolResponse
           [ mcp_types.TextContent
               (VStr ("Flight SERP query executed: " +:+ py_str summary));
             mcp_types.BlobContent (encode_utf8 payload)
               "application/json" "flight_search.json" ])
  else
    Raise (ToolError ("Unsupported tool: " +:+ name)).

(** ** Vocabulary of the statements *)

(** A bracketed clause of the query: the prefix and the date when the
    date is present and non-empty, nothing otherwise. *)
Definition optional_clause (prefix : string) (date : option string) : string :=
  match date with
  | Some d => if String.eqb d "" then "" else prefix +:+ d
  | None => ""
  end.

(** [flights from <origin> to <destination>[ on <depart_date>][ return
    <return_date>]] *)
Definition spec_query (origin destination : string)
    (depart_date return_date : option string) : string :=
  "flights from " +:+ origin +:+ " to " +:+ destination
  +:+ optional_clause " on " depart_date
  +:+ optional_clause " return " return_date.

(** The keys of the result and analysis slots of the pipeline state: per-engine
    search results, selected post URLs, post data, per-engine analyses
    and the final answer. *)
Definition result_slots : list string :=
  [ "google_results"; "bing_results"; "reddit_results";
    "selected_reddit_urls"; "reddit_post_data";
    "google_analysis"; "bing_analysis"; "reddit_analysis";
    "final_answer" ].

(** The schema that an object schema declares for one of its fields. *)
Definition schema_property (s : mcp_types.JSONSchema) (field : string)
  : option mcp_types.JSONSchema :=
  snd <$> find (fun p => String.eqb (fst p) field) (mcp_types.schema_properties s).

(** ** Sample calls *)

(** Collaborators that count the calls made to them.  This pipeline
    fills in [final_answer] with the question it was asked when the
    question is a non-empty string, and leaves the state as it is
    otherwise; this search returns one hit that quotes the query. *)
Definition counting : collaborators nat :=
  {| graph_invoke state n :=
       (S n,
        inr (match dict_get state "user_question" with
             | VStr (String _ _ as q) =>
                 dict_set state "final_answer" (VStr ("Answer: " +:+ q))
             | _ => state
             end));
     serp_search query engine n :=
       (S n, inr (VList [VDict [("title", VStr query); ("rank", VInt 1)]])) |}.

Definition tokyo_arguments : gmap string value :=
  {[ "question" := VStr "Plan a 3-day trip to Tokyo" ]}.

Definition blank_arguments : gmap string value :=
  {[ "question" := VStr "" ]}.

Definition sfo_nrt_arguments : gmap string value :=
  {[ "origin" := VStr "SFO"; "destination" := VStr "NRT";
     "depart_date" := VStr "2024-05-01" ]}.

Definition tokyo_question : value := VStr "Plan a 3-day trip to Tokyo".

(** What the sample pipeline returns for the two sample questions, and
    the serializations of both results. *)
Definition tokyo_result : pydict :=
  dict_set (_default_state tokyo_question) "final_answer"
    (VStr "Answer: Plan a 3-day trip to Tokyo").

Definition blank_result : pydict := _default_state (VStr "").

Definition tokyo_payload : string :=
  Eval vm_compute in
    match json_dumps (VDict tokyo_result) with inr p => p | inl _ => "" end.

Definition blank_payload : string :=
  Eval vm_compute in
    match json_dumps (VDict blank_result) with inr p => p | inl _ => "" end.

(** The outcome of the sample [travel.plan_trip] call, of the sample
    [travel.search_flights] call, and the serialization in the latter. *)
Definition tokyo_response : mcp_types.ToolResponse :=
  Eval vm_compute in
    match run counting (call_tool "travel.plan_trip" tokyo_arguments) 0 with
    | (_, _, inr r) => r
    | (_, _, inl _) => mcp_types.mkToolResponse []
    end.

Definition sfo_nrt_response : mcp_types.ToolResponse :=
  Eval vm_compute in
    match run counting (call_tool "travel.search_flights" sfo_nrt_arguments) 0 with
    | (_, _, inr r) => r
    | (_, _, inl _) => mcp_types.mkToolResponse []
    end.

Definition sfo_nrt_payload : string :=
  Eval vm_compute in
    match json_dumps
            (VDict [("query", VStr "flights from SFO to NRT on 2024-05-01");
                    ("results",
                     VList [VDict [("title",
                                    VStr "flights from SFO to NRT on 2024-05-01");
                                   ("rank", VInt 1)]])]) with
    | inr p => p
    | inl _ => ""
    end.

(** ** Vocabulary of the further properties *)

(** No value inside [v] is of a class that [json] cannot encode. *)
Fixpoint serializable (v : value) : bool :=
  match v with
  | VList items => forallb serializable items
  | VDict entries => forallb (fun item => serializable (snd item)) entries
  | VObj _ _ _ => false
  | _ => true
  end.

(** The descriptors that [list_tools] returns. *)
Definition registry : list mcp_types.Tool :=
  match list_tools with
  | Ret tools => tools
  | _ => []
  end.

(** The first of the fields [required] that [arguments] does not have. *)
Definition first_missing (required : list string)
    (arguments : gmap string value) : option string :=
  find (fun field => match arguments !! field with
                     | None => true
                     | Some _ => false
                     end) required.

(** The two descriptors of the registry, by position. *)
Definition plan_trip_tool : mcp_types.Tool :=
  nth 0 registry (mcp_types.mkTool "" "" (mcp_types.mkJSONSchema "" None None None)).

Definition search_flights_tool : mcp_types.Tool :=
  nth 1 registry (mcp_types.mkTool "" "" (mcp_types.mkJSONSchema "" None None None)).

(** Every code point of [s] is below 128. *)
Definition is_ascii (s : string) : bool :=
  forallb (fun ch => (N_of_ascii ch <? 128)%N) (list_ascii_of_string s).

(** A question with a character outside ASCII (code point 233), and the
    response of the sample pipeline to it. *)
Definition cafe_arguments : gmap string value :=
  {[ "question" := VStr (String "C" (String "a" (String "f" (String "233" "")))) ]}.

Definition cafe_response : mcp_types.ToolResponse :=
  Eval vm_compute in
    match run counting (call_tool "travel.plan_trip" cafe_arguments) 0 with
    | (_, _, inr r) => r
    | (_, _, inl _) => mcp_types.mkToolResponse []
    end.


(** A pipeline that returns the state with its messages turned into
    message objects, and a search that returns a result object; [json]
    can encode neither. *)
Definition with_message_objects : collaborators nat :=
  {| graph_invoke state n :=
       (S n,
        inr (dict_set state "messages"
               (VList [VObj "HumanMessage" true "HumanMessage(content='...')"])));
     serp_search query engine n :=
       (S n, inr (VList [VObj "SearchResult" true "<SearchResult>"])) |}.

(** An outcome of the encoder agrees with a test [ok] on its input: a
    value when the test holds, an exception when it does not. *)
Definition agrees {B : Type} (out : outcome B) (ok : bool) : Prop :=
  match out with
  | inr _ => ok = true
  | inl _ => ok = false
  end.

(** * Properties *)

(** ** Strings *)

Lemma append_nil_r (s : string) : s +:+ "" = s.
Proof. induction s as [|a s IH]; simpl; [reflexivity | now rewrite IH]. Qed.

Lemma append_assoc (s t u : string) : (s +:+ t) +:+ u = s +:+ t +:+ u.
Proof. induction s as [|a s IH]; simpl; [reflexivity | now rewrite IH]. Qed.

(** ** Running a handler *)

(** Running [x <- p ;; f x]: run [p]; on an exception stop there,
    otherwise run [f] on its value, and the calls are those of [p]
    followed by those of [f]. *)
Lemma run_bind {W A B : Type} (c : collaborators W) (p : prog A)
    (f : A -> prog B) (w : W) :
  run c (bind p f) w =
  match run c p w with
  | (w1, calls, inl e) => (w1, calls, inl e)
  | (w1, calls, inr a) =>
      let '(w2, calls', out) := run c (f a) w1 in (w2, calls ++ calls', out)
  end.
Proof.
  revert w. induction p as [a|e|state k IH|query engine k IH]; intros w; simpl.
  - now destruct (run c (f a) w) as [[w2 calls'] out].
  - reflexivity.
  - destruct (graph_invoke c state w) as [w1 [e|r]]; [reflexivity|].
    rewrite IH. destruct (run c (k r) w1) as [[w2 calls] [e|a]]; [reflexivity|].
    now destruct (run c (f a) w2) as [[w3 calls'] out].
  - destruct (serp_search c query engine w) as [w1 [e|r]]; [reflexivity|].
    rewrite IH. destruct (run c (k r) w1) as [[w2 calls] [e|a]]; [reflexivity|].
    now destruct (run c (f a) w2) as [[w3 calls'] out].
Qed.

(** The branch of [call_tool] taken for each of the two tool names. *)
Lemma call_tool_plan_trip (arguments : gmap string value) :
  call_tool "travel.plan_trip" arguments =
  (question <- getitem arguments "question" ;;
   result <- _invoke_graph question ;;
   payload <- lift (json_dumps (VDict result)) ;;
   Ret (mcp_types.mkToolResponse
          [ mcp_types.TextContent
              (py_or (dict_get result "final_answer")
                     (VStr "No response produced."));
            mcp_types.BlobContent (encode_utf8 payload)
              "application/json" "plan_trip.json" ])).
Proof. reflexivity. Qed.

Lemma call_tool_search_flights (arguments : gmap string value) :
  call_tool "travel.search_flights" arguments =
  (flight_payload <- _flight_lookup arguments ;;
   summary <- dict_getitem flight_payload "query" ;;
   payload <- lift (json_dumps (VDict flight_payload)) ;;
   Ret (mcp_types.mkToolResponse
          [ mcp_types.TextContent
              (VStr ("Flight SERP query executed: " +:+ py_str summary));
            mcp_types.BlobContent (encode_utf8 payload)
              "application/json" "flight_search.json" ])).
Proof. reflexivity. Qed.

(** ** Dispatch errors *)

(** Reading a missing required argument ends the handler at once. *)
Lemma plan_trip_without_question (arguments : gmap string value) :
  arguments !! "question" = None ->
  call_tool "travel.plan_trip" arguments = Raise (KeyError "question").
Proof.
  intros Hq. rewrite call_tool_plan_trip. unfold getitem. now rewrite Hq.
Qed.

Lemma search_flights_without_origin (arguments : gmap string value) :
  arguments !! "origin" = None ->
  call_tool "travel.search_flights" arguments = Raise (KeyError "origin").
Proof.
  intros Ho. rewrite call_tool_search_flights. unfold _flight_lookup, getitem.
  now rewrite Ho.
Qed.

Lemma search_flights_without_destination (arguments : gmap string value) :
  is_Some (arguments !! "origin") ->
  arguments !! "destination" = None ->
  call_tool "travel.search_flights" arguments = Raise (KeyError "destination").
Proof.
  intros [origin Ho] Hd. rewrite call_tool_search_flights.
  unfold _flight_lookup, getitem. now rewrite Ho, Hd.
Qed.

(** C4: for every tool name other than [travel.plan_trip] and
    [travel.search_flights] and every argument mapping, [call_tool] is
    the handler that raises [ToolError] with the message
    [Unsupported tool: <name>]; run against any collaborators it makes
    no call to either of them, leaves their state as it was, and ends
    with that error and no response. *)
Theorem unsupported_tool_fails (name : string) (arguments : gmap string value) :
  name <> "travel.plan_trip" ->
  name <> "travel.search_flights" ->
  call_tool name arguments = Raise (ToolError ("Unsupported tool: " +:+ name))
  /\ forall (W : Type) (c : collaborators W) (w : W),
       run c (call_tool name arguments) w
       = (w, [], inl (ToolError ("Unsupported tool: " +:+ name))).
Proof.
  intros Hplan Hsearch.
  assert (Hraise : call_tool name arguments
                   = Raise (ToolError ("Unsupported tool: " +:+ name))).
  { unfold call_tool.
    destruct (String.eqb_spec name "travel.plan_trip") as [->|_]; [done|].
    now destruct (String.eqb_spec name "travel.search_flights") as [->|_]. }
  split; [exact Hraise|]. intros W c w. now rewrite Hraise.
Qed.

Lemma unsupported_tool_fails_witness :
  call_tool "travel.unknown" sfo_nrt_arguments
  = Raise (ToolError "Unsupported tool: travel.unknown")
  /\ forall (W : Type) (c : collaborators W) (w : W),
       run c (call_tool "travel.unknown" sfo_nrt_arguments) w
       = (w, [], inl (ToolError "Unsupported tool: travel.unknown")).
Proof.
  apply (unsupported_tool_fails "travel.unknown" sfo_nrt_arguments);
    intros H; discriminate H.
Defined.

(** C5, as the code has it: a [travel.plan_trip] call whose arguments
    lack [question] is the handler that raises [KeyError] on that key,
    so no state is built and the pipeline is never called; a
    [travel.search_flights] call whose arguments lack [origin] or
    [destination] raises [KeyError] on a key that is indeed one of the
    two and missing, and the search is never called.  Either way the
    collaborators' state is untouched and there is no response.  The
    error is the [KeyError] of the lookup [arguments[key]], not the
    [ToolError] that the server raises for an unsupported name. *)
Theorem missing_argument_fails (arguments : gmap string value) :
  (arguments !! "question" = None ->
   call_tool "travel.plan_trip" arguments = Raise (KeyError "question")
   /\ forall (W : Type) (c : collaborators W) (w : W),
        run c (call_tool "travel.plan_trip" arguments) w
        = (w, [], inl (KeyError "question")))
  /\ (arguments !! "origin" = None \/ arguments !! "destination" = None ->
      exists field : string,
        (field = "origin" \/ field = "destination")
        /\ arguments !! field = None
        /\ call_tool "travel.search_flights" arguments = Raise (KeyError field)
        /\ forall (W : Type) (c : collaborators W) (w : W),
             run c (call_tool "travel.search_flights" arguments) w
             = (w, [], inl (KeyError field))).
Proof.
  split.
  - intros Hq. pose proof (plan_trip_without_question arguments Hq) as Hraise.
    split; [exact Hraise|]. intros W c w. now rewrite Hraise.
  - intros Hmissing.
    destruct (arguments !! "origin") as [origin|] eqn:Ho.
    + destruct Hmissing as [Habs|Hd]; [discriminate Habs|].
      assert (Hraise : call_tool "travel.search_flights" arguments
                       = Raise (KeyError "destination")).
      { apply search_flights_without_destination; [|exact Hd].
        rewrite Ho. now exists origin. }
      exists "destination". repeat split; auto.
      intros W c w. now rewrite Hraise.
    + pose proof (search_flights_without_origin arguments Ho) as Hraise.
      exists "origin". repeat split; auto.
      intros W c w. now rewrite Hraise.
Qed.

Lemma missing_argument_fails_witness :
  (call_tool "travel.plan_trip" sfo_nrt_arguments = Raise (KeyError "question")
   /\ forall (W : Type) (c : collaborators W) (w : W),
        run c (call_tool "travel.plan_trip" sfo_nrt_arguments) w
        = (w, [], inl (KeyError "question")))
  /\ exists field : string,
       (field = "origin" \/ field = "destination")
       /\ tokyo_arguments !! field = None
       /\ call_tool "travel.search_flights" tokyo_arguments
          = Raise (KeyError field)
       /\ forall (W : Type) (c : collaborators W) (w : W),
            run c (call_tool "travel.search_flights" tokyo_arguments) w
            = (w, [], inl (KeyError field)).
Proof.
  split.
  - apply (proj1 (missing_argument_fails sfo_nrt_arguments)). reflexivity.
  - apply (proj2 (missing_argument_fails tokyo_arguments)). left. reflexivity.
Defined.

(** C5, as the claim words it, fails: the error of a call that lacks a
    required argument is not a tool-level error.  With no arguments at
    all, [travel.plan_trip] ends with [KeyError] on [question], and
    with no [ToolError] whatever its message. *)
Lemma missing_question_is_not_tool_error :
  run counting (call_tool "travel.plan_trip" ∅) 0
  = (0, [], inl (KeyError "question"))
  /\ ~ exists msg : string,
        run counting (call_tool "travel.plan_trip" ∅) 0
        = (0, [], inl (ToolError msg)).
Proof.
  split; [reflexivity|]. intros [msg Hrun]. discriminate Hrun.
Qed.

(** ** The state builder *)

(** C7: for every question (a string, or any other value the caller
    passed), the state has exactly the keys [messages], [user_question]
    and the nine result slots; [messages] is a list of one message, with
    role [user] and the question as content; [user_question] is the
    question; and every result slot is a key of the state whose value
    is [None], not a key left out. *)
Theorem default_state_slots (question : value) :
  dict_lookup (_default_state question) "messages"
  = Some (VList [VDict [("role", VStr "user"); ("content", question)]])
  /\ dict_lookup (_default_state question) "user_question" = Some question
  /\ Forall (fun slot => dict_lookup (_default_state question) slot = Some VNone)
            result_slots
  /\ map fst (_default_state question)
     = "messages" :: "user_question" :: result_slots.
Proof.
  repeat split. unfold result_slots. repeat constructor.
Qed.

(** ** The tool registry *)

(** C8: [list_tools] takes no argument and is the handler that returns
    a fixed list of two descriptors without calling anything: run
    against any collaborators, from any state, it makes no call, leaves
    the state as it was and returns that same list.  The names are
    [travel.plan_trip] and [travel.search_flights], in this order and
    without repetition.  The first schema requires [question] and
    nothing else, the second [origin] and [destination] and nothing
    else, and each required field is declared with type [string]. *)
Theorem list_tools_registry :
  exists plan search : mcp_types.Tool,
    list_tools = Ret [plan; search]
    /\ (forall (W : Type) (c : collaborators W) (w : W),
          run c list_tools w = (w, [], inr [plan; search]))
    /\ map mcp_types.name [plan; search]
       = ["travel.plan_trip"; "travel.search_flights"]
    /\ NoDup (map mcp_types.name [plan; search])
    /\ mcp_types.schema_required (mcp_types.input_schema plan) = ["question"]
    /\ mcp_types.schema_required (mcp_types.input_schema search)
       = ["origin"; "destination"]
    /\ Forall (fun field =>
                 mcp_types.schema_type
                   <$> schema_property (mcp_types.input_schema plan) field
                 = Some "string")
              (mcp_types.schema_required (mcp_types.input_schema plan))
    /\ Forall (fun field =>
                 mcp_types.schema_type
                   <$> schema_property (mcp_types.input_schema search) field
                 = Some "string")
              (mcp_types.schema_required (mcp_types.input_schema search)).
Proof.
  do 2 eexists. split; [reflexivity|].
  split; [reflexivity|]. split; [reflexivity|].
  split.
  { simpl. apply NoDup_cons. split.
    - intros Hin. apply list_elem_of_singleton in Hin. discriminate Hin.
    - apply NoDup_singleton. }
  repeat split; repeat constructor.
Qed.

(** ** The query formatter *)

(** A date argument as [_flight_lookup] reads it: the string when the
    key is there, [None] when it is not. *)
Lemma args_get_date (arguments : gmap string value) (key : string)
    (date : option string) :
  arguments !! key = VStr <$> date ->
  args_get arguments key = from_option VStr VNone date.
Proof. intros H. unfold args_get. rewrite H. now destruct date. Qed.

(** On strings, the query built by the code is the query of the
    specification. *)
Lemma flight_query_spec (origin destination : string)
    (depart_date return_date : option string) :
  flight_query (VStr origin) (VStr destination)
    (from_option VStr VNone depart_date) (from_option VStr VNone return_date)
  = spec_query origin destination depart_date return_date.
Proof.
  unfold flight_query, spec_query, optional_clause.
  destruct depart_date as [[|a dd]|], return_date as [[|b rd]|]; simpl;
    rewrite ?append_assoc, ?append_nil_r; reflexivity.
Qed.

(** C1: when [origin] and [destination] are strings and each of
    [depart_date] and [return_date] is a string or is left out,
    [_flight_lookup] searches for [flights from <origin> to
    <destination>], followed by [ on <depart_date>] exactly when that
    date is there and not empty, followed by [ return <return_date>]
    exactly when that date is there and not empty, and puts the same
    string under [query] in what it returns.  For SFO, NRT, a departure
    on 2024-05-01 and no return date the query is [flights from SFO to
    NRT on 2024-05-01]. *)
Theorem flight_lookup_query :
  (forall (arguments : gmap string value) (origin destination : string)
          (depart_date return_date : option string),
     arguments !! "origin" = Some (VStr origin) ->
     arguments !! "destination" = Some (VStr destination) ->
     arguments !! "depart_date" = VStr <$> depart_date ->
     arguments !! "return_date" = VStr <$> return_date ->
     _flight_lookup arguments
     = SerpSearch (spec_query origin destination depart_date return_date)
         "google"
         (fun results =>
            Ret [("query",
                  VStr (spec_query origin destination depart_date return_date));
                 ("results", results)]))
  /\ (forall origin destination depart_date return_date : string,
        depart_date <> "" -> return_date <> "" ->
        spec_query origin destination (Some depart_date) (Some return_date)
        = "flights from " +:+ origin +:+ " to " +:+ destination
          +:+ " on " +:+ depart_date +:+ " return " +:+ return_date
        /\ spec_query origin destination (Some depart_date) None
           = "flights from " +:+ origin +:+ " to " +:+ destination
             +:+ " on " +:+ depart_date
        /\ spec_query origin destination None (Some return_date)
           = "flights from " +:+ origin +:+ " to " +:+ destination
             +:+ " return " +:+ return_date
        /\ spec_query origin destination None None
           = "flights from " +:+ origin +:+ " to " +:+ destination
        /\ spec_query origin destination (Some "") (Some "")
           = "flights from " +:+ origin +:+ " to " +:+ destination)
  /\ _flight_lookup sfo_nrt_arguments
     = SerpSearch "flights from SFO to NRT on 2024-05-01" "google"
         (fun results =>
            Ret [("query", VStr "flights from SFO to NRT on 2024-05-01");
                 ("results", results)]).
Proof.
  split; [|split].
  - intros arguments origin destination depart_date return_date Ho Hd Hdep Hret.
    unfold _flight_lookup, getitem. rewrite Ho, Hd. simpl.
    rewrite (args_get_date _ _ _ Hdep), (args_get_date _ _ _ Hret).
    now rewrite flight_query_spec.
  - intros origin destination depart_date return_date Hdep Hret.
    unfold spec_query, optional_clause.
    destruct depart_date as [|a dd]; [done|].
    destruct return_date as [|b rd]; [done|].
    simpl. rewrite ?append_assoc, ?append_nil_r. simpl.
    repeat split; reflexivity.
  - reflexivity.
Qed.

Lemma flight_lookup_query_witness :
  _flight_lookup sfo_nrt_arguments
  = SerpSearch (spec_query "SFO" "NRT" (Some "2024-05-01") None) "google"
      (fun results =>
         Ret [("query", VStr (spec_query "SFO" "NRT" (Some "2024-05-01") None));
              ("results", results)]).
Proof.
  apply (proj1 flight_lookup_query sfo_nrt_arguments "SFO" "NRT"
           (Some "2024-05-01") None); reflexivity.
Defined.

(** ** [travel.plan_trip] *)

(** What a [travel.plan_trip] call with a question does, against any
    collaborators: one call of the pipeline on the state built from the
    question; its exception if it raises; otherwise the serialization of
    its result, whose exception ends the call too, and at last the two
    content parts. *)
Lemma plan_trip_run {W : Type} (c : collaborators W) (w : W)
    (arguments : gmap string value) (question : value) :
  arguments !! "question" = Some question ->
  run c (call_tool "travel.plan_trip" arguments) w =
  match graph_invoke c (_default_state question) w with
  | (w1, inl e) => (w1, [InvokeCall (_default_state question)], inl e)
  | (w1, inr result) =>
      (w1, [InvokeCall (_default_state question)],
       match json_dumps (VDict result) with
       | inl e => inl e
       | inr payload =>
           inr (mcp_types.mkToolResponse
                  [ mcp_types.TextContent
                      (py_or (dict_get result "final_answer")
                             (VStr "No response produced."));
                    mcp_types.BlobContent (encode_utf8 payload)
                      "application/json" "plan_trip.json" ])
       end)
  end.
Proof.
  intros Hq. rewrite call_tool_plan_trip. unfold getitem, _invoke_graph.
  rewrite Hq. cbn [bind run].
  destruct (graph_invoke c (_default_state question) w) as [w1 [e|result]];
    [reflexivity|].
  now destruct (json_dumps (VDict result)) as [e|payload].
Qed.

(** [result.get("final_answer") or "No response produced."], by cases on
    the key. *)
Lemma final_answer_or_default (result : pydict) :
  py_or (dict_get result "final_answer") (VStr "No response produced.")
  = match dict_lookup result "final_answer" with
    | Some answer =>
        if truthy answer then answer else VStr "No response produced."
    | None => VStr "No response produced."
    end.
Proof.
  unfold py_or, dict_get.
  now destruct (dict_lookup result "final_answer") as [answer|].
Qed.

(** C2: in a [travel.plan_trip] call where the pipeline returned
    [result] and [result] could be serialized, the response is there
    and its first part is a text part: the literal [No response
    produced.] when [result] has no key [final_answer] or a falsy value
    under it, and the value under [final_answer] otherwise. *)
Theorem plan_trip_text {W : Type} (c : collaborators W) (w w' : W)
    (arguments : gmap string value) (question : value) (result : pydict)
    (payload : string) :
  arguments !! "question" = Some question ->
  graph_invoke c (_default_state question) w = (w', inr result) ->
  json_dumps (VDict result) = inr payload ->
  exists blob : mcp_types.Content,
    run c (call_tool "travel.plan_trip" arguments) w
    = (w', [InvokeCall (_default_state question)],
       inr (mcp_types.mkToolResponse
              [ mcp_types.TextContent
                  match dict_lookup result "final_answer" with
                  | Some answer =>
                      if truthy answer then answer
                      else VStr "No response produced."
                  | None => VStr "No response produced."
                  end;
                blob ])).
Proof.
  intros Hq Hinvoke Hdumps. eexists.
  rewrite (plan_trip_run c w arguments question Hq), Hinvoke, Hdumps.
  now rewrite final_answer_or_default.
Qed.

Lemma plan_trip_text_witness :
  (exists blob : mcp_types.Content,
     run counting (call_tool "travel.plan_trip" tokyo_arguments) 0
     = (1, [InvokeCall (_default_state tokyo_question)],
        inr (mcp_types.mkToolResponse
               [ mcp_types.TextContent
                   (VStr "Answer: Plan a 3-day trip to Tokyo");
                 blob ])))
  /\ (exists blob : mcp_types.Content,
        run counting (call_tool "travel.plan_trip" blank_arguments) 0
        = (1, [InvokeCall (_default_state (VStr ""))],
           inr (mcp_types.mkToolResponse
                  [ mcp_types.TextContent (VStr "No response produced.");
                    blob ]))).
Proof.
  split.
  - exact (plan_trip_text counting 0 1 tokyo_arguments tokyo_question
             tokyo_result tokyo_payload eq_refl eq_refl eq_refl).
  - exact (plan_trip_text counting 0 1 blank_arguments (VStr "")
             blank_result blank_payload eq_refl eq_refl eq_refl).
Defined.

(** A [travel.plan_trip] call that ends with a response, taken apart. *)
Lemma plan_trip_success {W : Type} (c : collaborators W) (w w' : W)
    (arguments : gmap string value) (calls : list event)
    (response : mcp_types.ToolResponse) :
  run c (call_tool "travel.plan_trip" arguments) w = (w', calls, inr response) ->
  exists (question : value) (result : pydict) (payload : string),
    arguments !! "question" = Some question
    /\ calls = [InvokeCall (_default_state question)]
    /\ graph_invoke c (_default_state question) w = (w', inr result)
    /\ json_dumps (VDict result) = inr payload
    /\ response
       = mcp_types.mkToolResponse
           [ mcp_types.TextContent
               (py_or (dict_get result "final_answer")
                      (VStr "No response produced."));
             mcp_types.BlobContent (encode_utf8 payload)
               "application/json" "plan_trip.json" ].
Proof.
  intros Hrun.
  destruct (arguments !! "question") as [question|] eqn:Hq.
  - rewrite (plan_trip_run c w arguments question Hq) in Hrun.
    destruct (graph_invoke c (_default_state question) w) as [w1 [e|result]]
      eqn:Hinvoke; [discriminate Hrun|].
    destruct (json_dumps (VDict result)) as [e|payload] eqn:Hdumps;
      [discriminate Hrun|].
    injection Hrun as <- <- <-.
    exists question, result, payload.
    split; [reflexivity|]. split; [reflexivity|]. split; [exact Hinvoke|].
    split; [exact Hdumps | reflexivity].
  - rewrite (plan_trip_without_question arguments Hq) in Hrun.
    discriminate Hrun.
Qed.

(** C3: a [travel.plan_trip] call ends with a response exactly when the
    arguments have a question, the pipeline, called once on the state
    built from it, returns a result mapping, and that mapping can be
    serialized.  The content of the response is then exactly two parts:
    a text part, and after it a blob part whose media type is
    [application/json], whose filename is [plan_trip.json] and whose
    bytes are the UTF-8 encoding of [json.dumps] of the whole result
    mapping. *)
Theorem plan_trip_content {W : Type} (c : collaborators W) (w w' : W)
    (arguments : gmap string value) (calls : list event)
    (response : mcp_types.ToolResponse) :
  run c (call_tool "travel.plan_trip" arguments) w = (w', calls, inr response)
  <->
  exists (question : value) (result : pydict) (payload : string),
    arguments !! "question" = Some question
    /\ calls = [InvokeCall (_default_state question)]
    /\ graph_invoke c (_default_state question) w = (w', inr result)
    /\ json_dumps (VDict result) = inr payload
    /\ exists text : value,
         text = py_or (dict_get result "final_answer")
                      (VStr "No response produced.")
         /\ response
            = mcp_types.mkToolResponse
                [ mcp_types.TextContent text;
                  mcp_types.BlobContent (encode_utf8 payload)
                    "application/json" "plan_trip.json" ].
Proof.
  split.
  - intros Hrun.
    destruct (plan_trip_success c w w' arguments calls response Hrun)
      as (question & result & payload & Hq & Hcalls & Hinvoke & Hdumps & ->).
    exists question, result, payload. repeat split; eauto.
  - intros (question & result & payload & Hq & -> & Hinvoke & Hdumps
            & text & -> & ->).
    now rewrite (plan_trip_run c w arguments question Hq), Hinvoke, Hdumps.
Qed.

Lemma plan_trip_content_witness :
  exists (question : value) (result : pydict) (payload : string),
    tokyo_arguments !! "question" = Some question
    /\ [InvokeCall (_default_state tokyo_question)]
       = [InvokeCall (_default_state question)]
    /\ graph_invoke counting (_default_state question) 0 = (1, inr result)
    /\ json_dumps (VDict result) = inr payload
    /\ exists text : value,
         text = py_or (dict_get result "final_answer")
                      (VStr "No response produced.")
         /\ tokyo_response
            = mcp_types.mkToolResponse
                [ mcp_types.TextContent text;
                  mcp_types.BlobContent (encode_utf8 payload)
                    "application/json" "plan_trip.json" ].
Proof.
  apply (proj1 (plan_trip_content counting 0 1 tokyo_arguments
                  [InvokeCall (_default_state tokyo_question)] tokyo_response)).
  vm_compute. reflexivity.
Defined.

(** ** [travel.search_flights] *)

(** What a [travel.search_flights] call with an origin and a destination
    does, against any collaborators: one search for the query, on the
    engine [google]; its exception if it raises; otherwise the
    serialization of the query with the results, and the two content
    parts. *)
Lemma search_flights_run {W : Type} (c : collaborators W) (w : W)
    (arguments : gmap string value) (origin destination : value) :
  arguments !! "origin" = Some origin ->
  arguments !! "destination" = Some destination ->
  run c (call_tool "travel.search_flights" arguments) w =
  let query := flight_query origin destination
                 (args_get arguments "depart_date")
                 (args_get arguments "return_date") in
  match serp_search c query "google" w with
  | (w1, inl e) => (w1, [SearchCall query "google"], inl e)
  | (w1, inr results) =>
      (w1, [SearchCall query "google"],
       match json_dumps (VDict [("query", VStr query); ("results", results)]) with
       | inl e => inl e
       | inr payload =>
           inr (mcp_types.mkToolResponse
                  [ mcp_types.TextContent
                      (VStr ("Flight SERP query executed: " +:+ query));
                    mcp_types.BlobContent (encode_utf8 payload)
                      "application/json" "flight_search.json" ])
       end)
  end.
Proof.
  intros Ho Hd. rewrite call_tool_search_flights.
  unfold _flight_lookup, getitem. rewrite Ho, Hd. cbn [bind run]. cbv zeta.
  set (query := flight_query _ _ _ _).
  destruct (serp_search c query "google" w) as [w1 [e|results]];
    [reflexivity|].
  unfold dict_getitem. cbn [dict_lookup]. rewrite String.eqb_refl.
  cbn [bind run py_str].
  now destruct (json_dumps _) as [e|payload].
Qed.

(** A [travel.search_flights] call that ends with a response, taken
    apart. *)
Lemma search_flights_success {W : Type} (c : collaborators W) (w w' : W)
    (arguments : gmap string value) (calls : list event)
    (response : mcp_types.ToolResponse) :
  run c (call_tool "travel.search_flights" arguments) w
  = (w', calls, inr response) ->
  exists (origin destination results : value) (query payload : string),
    arguments !! "origin" = Some origin
    /\ arguments !! "destination" = Some destination
    /\ query = flight_query origin destination
                 (args_get arguments "depart_date")
                 (args_get arguments "return_date")
    /\ calls = [SearchCall query "google"]
    /\ serp_search c query "google" w = (w', inr results)
    /\ json_dumps (VDict [("query", VStr query); ("results", results)])
       = inr payload
    /\ response
       = mcp_types.mkToolResponse
           [ mcp_types.TextContent
               (VStr ("Flight SERP query executed: " +:+ query));
             mcp_types.BlobContent (encode_utf8 payload)
               "application/json" "flight_search.json" ].
Proof.
  intros Hrun.
  destruct (arguments !! "origin") as [origin|] eqn:Ho.
  2:{ rewrite (search_flights_without_origin arguments Ho) in Hrun.
      discriminate Hrun. }
  destruct (arguments !! "destination") as [destination|] eqn:Hd.
  2:{ rewrite search_flights_without_destination in Hrun;
        [discriminate Hrun | rewrite Ho; now exists origin | exact Hd]. }
  rewrite (search_flights_run c w arguments origin destination Ho Hd) in Hrun.
  cbv zeta in Hrun. set (query := flight_query _ _ _ _) in *.
  destruct (serp_search c query "google" w) as [w1 [e|results]] eqn:Hsearch;
    [discriminate Hrun|].
  destruct (json_dumps _) as [e|payload] eqn:Hdumps; [discriminate Hrun|].
  injection Hrun as <- <- <-.
  exists origin, destination, results, query, payload.
  repeat split; auto.
Qed.

(** C6: a [travel.search_flights] call ends with a response exactly
    when the arguments have an origin and a destination, the search,
    called once with the query formatted from the arguments and with
    the engine [google], returns, and the mapping of [query] to the
    query string and of [results] to what the search returned can be
    serialized.  The bytes of the blob part are then the UTF-8 encoding
    of [json.dumps] of that mapping. *)
Theorem search_flights_call {W : Type} (c : collaborators W) (w w' : W)
    (arguments : gmap string value) (calls : list event)
    (response : mcp_types.ToolResponse) :
  run c (call_tool "travel.search_flights" arguments) w
  = (w', calls, inr response)
  <->
  exists (origin destination results : value) (query payload : string),
    arguments !! "origin" = Some origin
    /\ arguments !! "destination" = Some destination
    /\ query = flight_query origin destination
                 (args_get arguments "depart_date")
                 (args_get arguments "return_date")
    /\ calls = [SearchCall query "google"]
    /\ serp_search c query "google" w = (w', inr results)
    /\ json_dumps (VDict [("query", VStr query); ("results", results)])
       = inr payload
    /\ exists text : mcp_types.Content,
         text = mcp_types.TextContent
                  (VStr ("Flight SERP query executed: " +:+ query))
         /\ response
            = mcp_types.mkToolResponse
                [ text;
                  mcp_types.BlobContent (encode_utf8 payload)
                    "application/json" "flight_search.json" ].
Proof.
  split.
  - intros Hrun.
    destruct (search_flights_success c w w' arguments calls response Hrun)
      as (origin & destination & results & query & payload
          & Ho & Hd & Hquery & Hcalls & Hsearch & Hdumps & ->).
    exists origin, destination, results, query, payload.
    repeat split; eauto.
  - intros (origin & destination & results & query & payload
            & Ho & Hd & -> & -> & Hsearch & Hdumps & text & -> & ->).
    rewrite (search_flights_run c w arguments origin destination Ho Hd).
    cbv zeta. now rewrite Hsearch, Hdumps.
Qed.

Lemma search_flights_call_witness :
  exists (origin destination results : value) (query payload : string),
    sfo_nrt_arguments !! "origin" = Some origin
    /\ sfo_nrt_arguments !! "destination" = Some destination
    /\ query = flight_query origin destination
                 (args_get sfo_nrt_arguments "depart_date")
                 (args_get sfo_nrt_arguments "return_date")
    /\ [SearchCall "flights from SFO to NRT on 2024-05-01" "google"]
       = [SearchCall query "google"]
    /\ serp_search counting query "google" 0 = (1, inr results)
    /\ json_dumps (VDict [("query", VStr query); ("results", results)])
       = inr payload
    /\ exists text : mcp_types.Content,
         text = mcp_types.TextContent
                  (VStr ("Flight SERP query executed: " +:+ query))
         /\ sfo_nrt_response
            = mcp_types.mkToolResponse
                [ text;
                  mcp_types.BlobContent (encode_utf8 payload)
                    "application/json" "flight_search.json" ].
Proof.
  apply (proj1 (search_flights_call counting 0 1 sfo_nrt_arguments
                  [SearchCall "flights from SFO to NRT on 2024-05-01" "google"]
                  sfo_nrt_response)).
  vm_compute. reflexivity.
Defined.

(** C10: in a [travel.search_flights] call with an origin and a
    destination where the search returned and the mapping of query and
    results could be serialized, the response is there; its content is
    a text part that reads [Flight SERP query executed: ] followed by
    the query formatted from the arguments, and then a blob part with
    filename [flight_search.json] and media type [application/json]. *)
Theorem search_flights_text {W : Type} (c : collaborators W) (w w' : W)
    (arguments : gmap string value) (origin destination results : value)
    (query payload : string) :
  arguments !! "origin" = Some origin ->
  arguments !! "destination" = Some destination ->
  query = flight_query origin destination
            (args_get arguments "depart_date")
            (args_get arguments "return_date") ->
  serp_search c query "google" w = (w', inr results) ->
  json_dumps (VDict [("query", VStr query); ("results", results)])
  = inr payload ->
  exists data : list byte,
    run c (call_tool "travel.search_flights" arguments) w
    = (w', [SearchCall query "google"],
       inr (mcp_types.mkToolResponse
              [ mcp_types.TextContent
                  (VStr ("Flight SERP query executed: " +:+ query));
                mcp_types.BlobContent data
                  "application/json" "flight_search.json" ])).
Proof.
  intros Ho Hd -> Hsearch Hdumps. eexists.
  rewrite (search_flights_run c w arguments origin destination Ho Hd).
  cbv zeta. now rewrite Hsearch, Hdumps.
Qed.

Lemma search_flights_text_witness :
  exists data : list byte,
    run counting (call_tool "travel.search_flights" sfo_nrt_arguments) 0
    = (1, [SearchCall "flights from SFO to NRT on 2024-05-01" "google"],
       inr (mcp_types.mkToolResponse
              [ mcp_types.TextContent
                  (VStr ("Flight SERP query executed: "
                         +:+ "flights from SFO to NRT on 2024-05-01"));
                mcp_types.BlobContent data
                  "application/json" "flight_search.json" ])).
Proof.
  exact (search_flights_text counting 0 1 sfo_nrt_arguments
           (VStr "SFO") (VStr "NRT")
           (VList [VDict [("title", VStr "flights from SFO to NRT on 2024-05-01");
                          ("rank", VInt 1)]])
           "flights from SFO to NRT on 2024-05-01" sfo_nrt_payload
           eq_refl eq_refl eq_refl eq_refl eq_refl).
Defined.

(** ** UTF-8 *)

Lemma byte_of_ascii_inj (a b : ascii) : byte_of_ascii a = byte_of_ascii b -> a = b.
Proof.
  intros H. apply (f_equal ascii_of_byte) in H.
  now rewrite !ascii_of_byte_of_ascii in H.
Qed.

Lemma N_of_ascii_inj (a b : ascii) : N_of_ascii a = N_of_ascii b -> a = b.
Proof.
  intros H. apply (f_equal ascii_of_N) in H.
  now rewrite !ascii_N_embedding in H.
Qed.

(** The quotient and the remainder by 64 of a code point below 256. *)
Lemma code_point_split (c : ascii) :
  exists q r : N,
    (N_of_ascii c / 64 = q /\ N_of_ascii c mod 64 = r
     /\ N_of_ascii c = 64 * q + r /\ q < 4 /\ r < 64)%N.
Proof.
  pose proof (N_ascii_bounded c) as Hc.
  exists (N_of_ascii c / 64)%N, (N_of_ascii c mod 64)%N.
  repeat split.
  - now apply N.div_mod.
  - apply N.Div0.div_lt_upper_bound. lia.
  - now apply N.mod_lt.
Qed.

Lemma utf8_char_app_inj (c1 c2 : ascii) (l1 l2 : list byte) :
  utf8_char c1 ++ l1 = utf8_char c2 ++ l2 -> c1 = c2 /\ l1 = l2.
Proof.
  unfold utf8_char.
  destruct (code_point_split c1) as (q1 & r1 & -> & -> & E1 & Q1 & R1).
  destruct (code_point_split c2) as (q2 & r2 & -> & -> & E2 & Q2 & R2).
  destruct (N.ltb_spec (N_of_ascii c1) 128) as [L1|L1],
           (N.ltb_spec (N_of_ascii c2) 128) as [L2|L2];
    cbn [app]; intros H.
  - injection H as H ->. now apply byte_of_ascii_inj in H.
  - exfalso. injection H as H _.
    apply byte_of_ascii_inj, (f_equal N_of_ascii) in H.
    rewrite N_ascii_embedding in H by lia. lia.
  - exfalso. injection H as H _.
    apply byte_of_ascii_inj, (f_equal N_of_ascii) in H.
    rewrite N_ascii_embedding in H by lia. lia.
  - injection H as H1 H2 ->.
    apply byte_of_ascii_inj, (f_equal N_of_ascii) in H1.
    apply byte_of_ascii_inj, (f_equal N_of_ascii) in H2.
    rewrite !N_ascii_embedding in H1, H2 by lia.
    split; [|reflexivity]. apply N_of_ascii_inj. lia.
Qed.

(** Two strings with the same UTF-8 bytes are the same string. *)
Lemma encode_utf8_inj (s t : string) : encode_utf8 s = encode_utf8 t -> s = t.
Proof.
  revert t. induction s as [|a s IH]; intros [|b t] H.
  - reflexivity.
  - exfalso. unfold encode_utf8 in H. cbn [list_ascii_of_string flat_map] in H.
    unfold utf8_char in H. destruct (_ <? _)%N; discriminate H.
  - exfalso. unfold encode_utf8 in H. cbn [list_ascii_of_string flat_map] in H.
    unfold utf8_char in H. destruct (_ <? _)%N; discriminate H.
  - unfold encode_utf8 in H. cbn [list_ascii_of_string flat_map] in H.
    apply utf8_char_app_inj in H as [-> H]. f_equal. now apply IH.
Qed.

(** ** The payload of [travel.plan_trip] is that of the result as returned *)

Lemma str_join_cons (sep chunk : string) (chunks : list string) (tail : string) :
  str_join sep (chunk :: chunks) +:+ tail = chunk +:+ join_rest sep chunks tail.
Proof.
  destruct chunks as [|chunk' chunks]; [reflexivity|].
  cbn [str_join join_rest]. now rewrite !append_assoc.
Qed.

Lemma join_rest_cons (sep chunk : string) (chunks : list string) (tail : string) :
  join_rest sep (chunk :: chunks) tail
  = sep +:+ chunk +:+ join_rest sep chunks tail.
Proof. cbn [join_rest]. now rewrite str_join_cons. Qed.

(** The rendering of a falsy value never starts the way the rendering
    of the substitute string does. *)
Lemma falsy_chunk_differs (level : nat) (x : value) (chunk rest rest' : string) :
  truthy x = false ->
  json_encode level x = inr chunk ->
  chunk +:+ rest <> json_str "No response produced." +:+ rest'.
Proof.
  intros Hfalsy Hencode.
  destruct x as [|[|]|n|s|[|item items]|[|entry entries]|cls truth text];
    try discriminate Hfalsy; try discriminate Hencode.
  - injection Hencode as <-. discriminate.
  - injection Hencode as <-. discriminate.
  - cbn in Hfalsy. apply negb_false_iff, Z.eqb_eq in Hfalsy. subst n.
    injection Hencode as <-. discriminate.
  - destruct s as [|a s]; [|discriminate Hfalsy].
    injection Hencode as <-. discriminate.
  - injection Hencode as <-. discriminate.
  - injection Hencode as <-. discriminate.
Qed.

Lemma traverse_cons {A B : Type} (f : A -> outcome B) (x : A) (l : list A) :
  traverse f (x :: l)
  = match f x with
    | inl e => inl e
    | inr y => match traverse f l with
               | inl e => inl e
               | inr ys => inr (y :: ys)
               end
    end.
Proof. reflexivity. Qed.

Lemma json_item_str (level : nat) (k s : string) :
  json_item (json_encode level) (k, VStr s)
  = inr (json_str k +:+ ": " +:+ json_str s).
Proof. reflexivity. Qed.

(** Setting [key] to the substitute string in a mapping whose value
    under [key] is missing or falsy changes the items that the encoder
    joins, whatever follows them on a new line. *)
Lemma dict_set_items (level : nat) (key : string) (d : pydict)
    (chunks : list string) :
  truthy (dict_get d key) = false ->
  traverse (json_item (json_encode level)) d = inr chunks ->
  exists chunks' : list string,
    traverse (json_item (json_encode level))
      (dict_set d key (VStr "No response produced.")) = inr chunks'
    /\ forall tail : string,
         join_rest ("," +:+ newline_indent level) chunks (String "010" tail)
         <> join_rest ("," +:+ newline_indent level) chunks' (String "010" tail).
Proof.
  revert chunks. induction d as [|[k x] rest IH]; intros chunks Hfalsy Htraverse.
  - injection Htraverse as <-. eexists. split; [reflexivity|].
    intros tail. cbn. discriminate.
  - rewrite traverse_cons in Htraverse. unfold json_item at 1 in Htraverse.
    destruct (json_encode level x) as [e|chunk] eqn:Hx; [discriminate Htraverse|].
    destruct (traverse _ rest) as [e|others] eqn:Hrest; [discriminate Htraverse|].
    assert (chunks = (json_str k +:+ ": " +:+ chunk) :: others) as ->
      by congruence.
    clear Htraverse.
    unfold dict_get in Hfalsy. cbn [dict_set dict_lookup] in *.
    destruct (String.eqb k key) eqn:Hk.
    + rewrite traverse_cons, json_item_str, Hrest.
      eexists. split; [reflexivity|].
      intros tail. rewrite !join_rest_cons.
      intros Heq. apply String.app_inj in Heq.
      rewrite !(append_assoc (json_str k)), !(append_assoc ": ") in Heq.
      do 2 apply String.app_inj in Heq.
      now apply (falsy_chunk_differs level x) in Heq.
    + destruct (IH others Hfalsy eq_refl) as (others' & Hset & Hne).
      rewrite traverse_cons. unfold json_item at 1. rewrite Hx, Hset.
      eexists. split; [reflexivity|].
      intros tail. rewrite !join_rest_cons.
      intros Heq. do 2 apply String.app_inj in Heq. now apply Hne in Heq.
Qed.

Lemma json_encode_dict_cons (level : nat) (item : string * value) (rest : pydict) :
  json_encode level (VDict (item :: rest))
  = match traverse (json_item (json_encode (S level))) (item :: rest) with
    | inl e => inl e
    | inr chunks =>
        inr ("{" +:+ newline_indent (S level)
             +:+ str_join ("," +:+ newline_indent (S level)) chunks
             +:+ newline_indent level +:+ "}")
    end.
Proof. reflexivity. Qed.

Lemma traverse_cons_inv {A B : Type} (f : A -> outcome B) (x : A) (l : list A)
    (ys : list B) :
  traverse f (x :: l) = inr ys -> exists y ys', ys = y :: ys'.
Proof.
  rewrite traverse_cons. destruct (f x) as [e|y]; [discriminate|].
  destruct (traverse f l) as [e|ys']; [discriminate|].
  intros [= <-]. now exists y, ys'.
Qed.

Lemma dict_set_cons (d : pydict) (key : string) (v : value) :
  exists item rest, dict_set d key v = item :: rest.
Proof.
  destruct d as [|[k x] d]; cbn [dict_set]; [now eexists _, _|].
  destruct (String.eqb k key); now eexists _, _.
Qed.

(** Had the server stored the substitute string under [final_answer]
    before serializing, the payload would have been another one. *)
Lemma dumps_substituted_differs (result : pydict) (payload : string) :
  truthy (dict_get result "final_answer") = false ->
  json_dumps (VDict result) = inr payload ->
  exists payload' : string,
    json_dumps (VDict (dict_set result "final_answer"
                         (VStr "No response produced.")))
    = inr payload'
    /\ payload' <> payload.
Proof.
  intros Hfalsy Hdumps. unfold json_dumps in *.
  destruct result as [|item rest].
  - injection Hdumps as <-. eexists. split; [reflexivity|]. discriminate.
  - rewrite json_encode_dict_cons in Hdumps.
    destruct (traverse _ (item :: rest)) as [e|chunks] eqn:Htraverse;
      [discriminate Hdumps|].
    destruct (dict_set_items 1 "final_answer" (item :: rest) chunks
                Hfalsy Htraverse) as (chunks' & Hset & Hne).
    destruct (dict_set_cons (item :: rest) "final_answer"
                (VStr "No response produced.")) as (item' & rest' & Hcons).
    rewrite Hcons in *. rewrite json_encode_dict_cons, Hset.
    destruct (traverse_cons_inv _ _ _ _ Htraverse) as (y & ys & ->).
    destruct (traverse_cons_inv _ _ _ _ Hset) as (y' & ys' & ->).
    assert (payload = "{" +:+ newline_indent 1
                      +:+ str_join ("," +:+ newline_indent 1) (y :: ys)
                      +:+ newline_indent 0 +:+ "}") as -> by congruence.
    eexists. split; [reflexivity|].
    intros Heq. do 2 apply String.app_inj in Heq.
    apply (Hne "}"). unfold join_rest.
    change (String "010" "}") with (newline_indent 0 +:+ "}").
    now rewrite Heq.
Qed.

(** C9: in a [travel.plan_trip] call where the pipeline returned
    [result] and [result] could be serialized to [payload], the blob of
    the response holds the bytes of [payload], the serialization of
    [result] as the pipeline returned it, whatever the text part is.
    When [result] has no [final_answer] or a falsy one, the text part
    is the substitute string and the blob is still that of [result]:
    [result] with the substitute stored under [final_answer] has a
    serialization too, and its bytes are not those of the blob. *)
Theorem plan_trip_payload_untouched {W : Type} (c : collaborators W) (w w' : W)
    (arguments : gmap string value) (question : value) (result : pydict)
    (payload : string) :
  arguments !! "question" = Some question ->
  graph_invoke c (_default_state question) w = (w', inr result) ->
  json_dumps (VDict result) = inr payload ->
  exists text : value,
    run c (call_tool "travel.plan_trip" arguments) w
    = (w', [InvokeCall (_default_state question)],
       inr (mcp_types.mkToolResponse
              [ mcp_types.TextContent text;
                mcp_types.BlobContent (encode_utf8 payload)
                  "application/json" "plan_trip.json" ]))
    /\ (truthy (dict_get result "final_answer") = false ->
        text = VStr "No response produced."
        /\ exists payload' : string,
             json_dumps (VDict (dict_set result "final_answer"
                                  (VStr "No response produced.")))
             = inr payload'
             /\ encode_utf8 payload' <> encode_utf8 payload).
Proof.
  intros Hq Hinvoke Hdumps. eexists. split.
  - now rewrite (plan_trip_run c w arguments question Hq), Hinvoke, Hdumps.
  - intros Hfalsy. split.
    + unfold py_or. now rewrite Hfalsy.
    + destruct (dumps_substituted_differs result payload Hfalsy Hdumps)
        as (payload' & Hdumps' & Hne).
      exists payload'. split; [exact Hdumps'|].
      intros Hbytes. now apply encode_utf8_inj in Hbytes.
Qed.

Lemma plan_trip_payload_untouched_witness :
  exists text : value,
    run counting (call_tool "travel.plan_trip" blank_arguments) 0
    = (1, [InvokeCall (_default_state (VStr ""))],
       inr (mcp_types.mkToolResponse
              [ mcp_types.TextContent text;
                mcp_types.BlobContent (encode_utf8 blank_payload)
                  "application/json" "plan_trip.json" ]))
    /\ text = VStr "No response produced."
    /\ exists payload' : string,
         json_dumps (VDict (dict_set blank_result "final_answer"
                              (VStr "No response produced.")))
         = inr payload'
         /\ encode_utf8 payload' <> encode_utf8 blank_payload.
Proof.
  destruct (plan_trip_payload_untouched counting 0 1 blank_arguments (VStr "")
              blank_result blank_payload eq_refl eq_refl eq_refl)
    as (text & Hrun & Hfalsy).
  exists text. split; [exact Hrun | exact (Hfalsy eq_refl)].
Defined.

(** * Further properties of the server *)

(** ** Induction on values *)

(** Induction on a value, with the property at hand for every item of a
    list and for every value of a dict. *)
Lemma value_nested_ind (P : value -> Prop) :
  P VNone ->
  (forall b, P (VBool b)) ->
  (forall n, P (VInt n)) ->
  (forall s, P (VStr s)) ->
  (forall items, Forall P items -> P (VList items)) ->
  (forall entries, Forall (fun item => P (snd item)) entries -> P (VDict entries)) ->
  (forall cls truth text, P (VObj cls truth text)) ->
  forall v, P v.
Proof.
  intros HNone HBool HInt HStr HList HDict HObj.
  fix IH 1. intros [|b|n|s|items|entries|cls truth text].
  - exact HNone.
  - apply HBool.
  - apply HInt.
  - apply HStr.
  - apply HList. induction items as [|x items IHitems]; constructor.
    + apply IH.
    + exact IHitems.
  - apply HDict. induction entries as [|[k x] entries IHentries]; constructor.
    + apply IH.
    + exact IHentries.
  - apply HObj.
Qed.

(** ** When [json.dumps] cannot encode *)

Lemma traverse_agrees {A B : Type} (f : A -> outcome B) (ok : A -> bool)
    (l : list A) :
  Forall (fun x => agrees (f x) (ok x)) l ->
  agrees (traverse f l) (forallb ok l).
Proof.
  induction 1 as [|x l Hx Hl IH]; [reflexivity|].
  rewrite traverse_cons. cbn [forallb]. unfold agrees in *.
  destruct (f x) as [e|y]; [now rewrite Hx|].
  rewrite Hx. now destruct (traverse f l) as [e|ys].
Qed.

(** The encoder returns a text exactly for the values that hold no
    object of a class it cannot encode. *)
Lemma json_encode_agrees (v : value) (level : nat) :
  agrees (json_encode level v) (serializable v).
Proof.
  revert level.
  induction v as [|[|]|n|s|items IH|entries IH|cls truth text]
    using value_nested_ind; intros level; try reflexivity.
  - destruct items as [|x items]; [reflexivity|].
    cbn [json_encode serializable].
    pose proof (traverse_agrees (json_encode (S level)) serializable (x :: items))
      as Htraverse.
    destruct (traverse _ (x :: items)) as [e|chunks]; apply Htraverse;
      (eapply Forall_impl; [exact IH|]); intros y Hy; apply Hy.
  - destruct entries as [|item entries]; [reflexivity|].
    cbn [json_encode serializable].
    pose proof (traverse_agrees (json_item (json_encode (S level)))
                  (fun item => serializable (snd item)) (item :: entries))
      as Htraverse.
    assert (Hitems : Forall (fun i => agrees (json_item (json_encode (S level)) i)
                                        (serializable (snd i)))
                            (item :: entries)).
    { eapply Forall_impl; [exact IH|]. intros [k y] Hy. cbn [snd] in *.
      specialize (Hy (S level)). unfold json_item, agrees in *.
      now destruct (json_encode (S level) y). }
    destruct (traverse _ (item :: entries)) as [e|chunks];
      now apply Htraverse.
Qed.

(** A result that holds a value [json] cannot encode never gives a
    response: the [travel.plan_trip] call fails once the pipeline has
    run, so the pipeline's call is logged and the collaborators are in
    the state it left, but the caller gets an exception. *)
Theorem plan_trip_unencodable_result {W : Type} (c : collaborators W)
    (w w' : W) (arguments : gmap string value) (question : value)
    (result : pydict) :
  arguments !! "question" = Some question ->
  graph_invoke c (_default_state question) w = (w', inr result) ->
  serializable (VDict result) = false ->
  exists e : exn,
    run c (call_tool "travel.plan_trip" arguments) w
    = (w', [InvokeCall (_default_state question)], inl e).
Proof.
  intros Hq Hinvoke Hobject.
  rewrite (plan_trip_run c w arguments question Hq), Hinvoke.
  pose proof (json_encode_agrees (VDict result) 0) as Hagrees.
  unfold json_dumps, agrees in *.
  destruct (json_encode 0 (VDict result)) as [e|payload]; [now exists e|].
  congruence.
Qed.

Lemma plan_trip_unencodable_result_witness :
  exists e : exn,
    run with_message_objects (call_tool "travel.plan_trip" tokyo_arguments) 0
    = (1, [InvokeCall (_default_state tokyo_question)], inl e).
Proof.
  exact (plan_trip_unencodable_result with_message_objects 0 1 tokyo_arguments
           tokyo_question
           (dict_set (_default_state tokyo_question) "messages"
              (VList [VObj "HumanMessage" true "HumanMessage(content='...')"]))
           eq_refl eq_refl eq_refl).
Defined.

(** The same for [travel.search_flights]: when what the search returned
    holds a value [json] cannot encode, the call fails once the search
    has run, and there is no response. *)
Theorem search_flights_unencodable_results {W : Type} (c : collaborators W)
    (w w' : W) (arguments : gmap string value)
    (origin destination results : value) (query : string) :
  arguments !! "origin" = Some origin ->
  arguments !! "destination" = Some destination ->
  query = flight_query origin destination
            (args_get arguments "depart_date")
            (args_get arguments "return_date") ->
  serp_search c query "google" w = (w', inr results) ->
  serializable results = false ->
  exists e : exn,
    run c (call_tool "travel.search_flights" arguments) w
    = (w', [SearchCall query "google"], inl e).
Proof.
  intros Ho Hd -> Hsearch Hobject.
  rewrite (search_flights_run c w arguments origin destination Ho Hd).
  cbv zeta. rewrite Hsearch.
  set (query := flight_query _ _ _ _).
  pose proof (json_encode_agrees
                (VDict [("query", VStr query); ("results", results)]) 0)
    as Hagrees.
  unfold json_dumps, agrees in *. cbn [serializable forallb snd andb] in Hagrees.
  rewrite andb_true_r in Hagrees.
  destruct (json_encode 0 _) as [e|payload]; [now exists e|].
  congruence.
Qed.

Lemma search_flights_unencodable_results_witness :
  exists e : exn,
    run with_message_objects
      (call_tool "travel.search_flights" sfo_nrt_arguments) 0
    = (1, [SearchCall "flights from SFO to NRT on 2024-05-01" "google"], inl e).
Proof.
  exact (search_flights_unencodable_results with_message_objects 0 1
           sfo_nrt_arguments (VStr "SFO") (VStr "NRT")
           (VList [VObj "SearchResult" true "<SearchResult>"])
           "flights from SFO to NRT on 2024-05-01"
           eq_refl eq_refl eq_refl eq_refl eq_refl).
Defined.

(** ** Calls made to the collaborators *)

(** A name that is neither of the two tools. *)
Lemma call_tool_other_name (name : string) (arguments : gmap string value) :
  name <> "travel.plan_trip" ->
  name <> "travel.search_flights" ->
  call_tool name arguments = Raise (ToolError ("Unsupported tool: " +:+ name)).
Proof.
  intros Hplan Hsearch. unfold call_tool.
  destruct (String.eqb_spec name "travel.plan_trip") as [->|_]; [done|].
  now destruct (String.eqb_spec name "travel.search_flights") as [->|_].
Qed.




(** ** The registry and the dispatcher agree *)

(** The tools that [call_tool] serves are the tools that [list_tools]
    lists: for every name and all arguments, [call_tool] is the handler
    that fails with [ToolError] exactly when no listed descriptor has
    that name. *)
Theorem registry_names_dispatched (name : string)
    (arguments : gmap string value) :
  (exists msg : string, call_tool name arguments = Raise (ToolError msg))
  <-> name ∉ map mcp_types.name registry.
Proof.
  change (map mcp_types.name registry)
    with ["travel.plan_trip"; "travel.search_flights"].
  split.
  - intros [msg Hraise] Hin.
    apply elem_of_cons in Hin as [->|Hin];
      [|apply elem_of_cons in Hin as [->|Hin]; [|now apply elem_of_nil in Hin]].
    + rewrite call_tool_plan_trip in Hraise. unfold getitem in Hraise.
      destruct (arguments !! "question"); discriminate Hraise.
    + rewrite call_tool_search_flights in Hraise.
      unfold _flight_lookup, getitem in Hraise.
      destruct (arguments !! "origin"); [|discriminate Hraise].
      destruct (arguments !! "destination"); discriminate Hraise.
  - intros Hnotin. eexists. apply call_tool_other_name.
    + intros ->. apply Hnotin. apply elem_of_cons. now left.
    + intros ->. apply Hnotin. apply elem_of_cons. right.
      apply elem_of_cons. now left.
Qed.

(** The fields that a listed schema requires are the fields whose
    absence [call_tool] reports, in the order of the schema: when some
    required field of the tool is missing, the call is the handler that
    raises [KeyError] on the first missing one; when none is missing, it
    does not fail before it calls a collaborator. *)
Theorem required_fields_checked (tool : mcp_types.Tool)
    (arguments : gmap string value) :
  tool ∈ registry ->
  match first_missing
          (mcp_types.schema_required (mcp_types.input_schema tool))
          arguments with
  | Some field =>
      call_tool (mcp_types.name tool) arguments = Raise (KeyError field)
  | None =>
      forall e : exn, call_tool (mcp_types.name tool) arguments <> Raise e
  end.
Proof.
  intros Hin.
  apply elem_of_cons in Hin as [->|Hin];
    [|apply elem_of_cons in Hin as [->|Hin]; [|now apply elem_of_nil in Hin]];
    unfold first_missing;
    cbn [mcp_types.name mcp_types.input_schema mcp_types.schema_required
         default from_option id find].
  - destruct (arguments !! "question") as [question|] eqn:Hq; cbn [find].
    + intros e. rewrite call_tool_plan_trip. unfold getitem. rewrite Hq.
      discriminate.
    + now apply plan_trip_without_question.
  - destruct (arguments !! "origin") as [origin|] eqn:Ho; cbn [find];
      [|now apply search_flights_without_origin].
    destruct (arguments !! "destination") as [destination|] eqn:Hd; cbn [find].
    + intros e. rewrite call_tool_search_flights.
      unfold _flight_lookup, getitem. rewrite Ho, Hd. discriminate.
    + apply search_flights_without_destination; [|exact Hd].
      rewrite Ho. now exists origin.
Qed.

Lemma required_fields_checked_witness :
  call_tool "travel.search_flights" (delete "origin" sfo_nrt_arguments)
  = Raise (KeyError "origin")
  /\ forall e : exn, call_tool "travel.plan_trip" tokyo_arguments <> Raise e.
Proof.
  split.
  - exact (required_fields_checked search_flights_tool
             (delete "origin" sfo_nrt_arguments)
             (proj2 (elem_of_cons _ _ _)
                (or_intror (proj2 (elem_of_cons _ _ _) (or_introl eq_refl))))).
  - exact (required_fields_checked plan_trip_tool tokyo_arguments
             (proj2 (elem_of_cons _ _ _) (or_introl eq_refl))).
Defined.

(** [call_tool] reads nothing but the fields that the schema of the tool
    declares: two argument mappings that agree on the declared
    properties of a listed tool give the same handler. *)
Theorem undeclared_arguments_ignored (tool : mcp_types.Tool)
    (arguments arguments' : gmap string value) :
  tool ∈ registry ->
  (forall field : string,
     field ∈ map fst (mcp_types.schema_properties (mcp_types.input_schema tool)) ->
     arguments !! field = arguments' !! field) ->
  call_tool (mcp_types.name tool) arguments
  = call_tool (mcp_types.name tool) arguments'.
Proof.
  intros Hin Hagree.
  apply elem_of_cons in Hin as [->|Hin];
    [|apply elem_of_cons in Hin as [->|Hin]; [|now apply elem_of_nil in Hin]];
    cbn [mcp_types.name mcp_types.input_schema mcp_types.schema_properties
         default from_option id map fst] in *.
  - rewrite !call_tool_plan_trip. unfold getitem.
    rewrite (Hagree "question"); [reflexivity|].
    apply elem_of_cons. now left.
  - rewrite !call_tool_search_flights. unfold _flight_lookup, getitem, args_get.
    rewrite (Hagree "origin"), (Hagree "destination"),
            (Hagree "depart_date"), (Hagree "return_date");
      [reflexivity|..]; repeat (apply elem_of_cons; first [now left|right]).
Qed.

Lemma undeclared_arguments_ignored_witness :
  call_tool "travel.plan_trip" tokyo_arguments
  = call_tool "travel.plan_trip" (<["verbose" := VBool true]> tokyo_arguments).
Proof.
  apply (undeclared_arguments_ignored plan_trip_tool
           tokyo_arguments (<["verbose" := VBool true]> tokyo_arguments)).
  - apply elem_of_cons. now left.
  - intros field Hfield. apply elem_of_cons in Hfield as [->|Hfield];
      [reflexivity | now apply elem_of_nil in Hfield].
Defined.

(** ** Edge values *)

(** A date that is there but falsy, such as [None], the empty string or
    zero, counts as a date left out: the call is the same handler as
    with the key deleted, so the clause of that date is not in the
    query. *)
Theorem falsy_date_is_left_out (arguments : gmap string value)
    (key : string) (date : value) :
  key = "depart_date" \/ key = "return_date" ->
  arguments !! key = Some date ->
  truthy date = false ->
  call_tool "travel.search_flights" arguments
  = call_tool "travel.search_flights" (delete key arguments).
Proof.
  intros Hkey Hdate Hfalsy.
  rewrite !call_tool_search_flights. unfold _flight_lookup, getitem, args_get.
  destruct Hkey as [-> | ->];
    rewrite lookup_delete_eq, !lookup_delete_ne by discriminate;
    rewrite Hdate; cbn [default from_option id];
    destruct (arguments !! "origin") as [origin|]; [|reflexivity| |reflexivity];
    (destruct (arguments !! "destination") as [destination|]; [|reflexivity]);
    cbn [bind]; unfold flight_query; rewrite Hfalsy; reflexivity.
Qed.

Lemma falsy_date_is_left_out_witness :
  call_tool "travel.search_flights"
    (<["return_date" := VNone]> sfo_nrt_arguments)
  = call_tool "travel.search_flights"
      (delete "return_date" (<["return_date" := VNone]> sfo_nrt_arguments)).
Proof.
  apply (falsy_date_is_left_out (<["return_date" := VNone]> sfo_nrt_arguments)
           "return_date" VNone); [now right | reflexivity | reflexivity].
Defined.

(** The text part of a [travel.plan_trip] response is never [None], an
    empty string or any other falsy value. *)
Theorem plan_trip_text_truthy {W : Type} (c : collaborators W) (w w' : W)
    (arguments : gmap string value) (calls : list event)
    (response : mcp_types.ToolResponse) :
  run c (call_tool "travel.plan_trip" arguments) w = (w', calls, inr response) ->
  exists (text : value) (blob : mcp_types.Content),
    mcp_types.content response = [mcp_types.TextContent text; blob]
    /\ truthy text = true.
Proof.
  intros Hrun.
  destruct (plan_trip_success c w w' arguments calls response Hrun)
    as (question & result & payload & _ & _ & _ & _ & ->).
  do 2 eexists. split; [reflexivity|].
  unfold py_or. now destruct (truthy (dict_get result "final_answer")) eqn:Ht.
Qed.

Lemma plan_trip_text_truthy_witness :
  exists (text : value) (blob : mcp_types.Content),
    mcp_types.content tokyo_response = [mcp_types.TextContent text; blob]
    /\ truthy text = true.
Proof.
  apply (plan_trip_text_truthy counting 0 1 tokyo_arguments
           [InvokeCall (_default_state tokyo_question)] tokyo_response).
  vm_compute. reflexivity.
Defined.

(** ** The blob is plain ASCII *)

Lemma is_ascii_app (s t : string) :
  is_ascii (s +:+ t) = is_ascii s && is_ascii t.
Proof.
  unfold is_ascii. induction s as [|ch s IH]; [reflexivity|].
  cbn [String.append list_ascii_of_string forallb]. now rewrite IH, andb_assoc.
Qed.

Lemma is_ascii_concat (parts : list string) :
  Forall (fun part => is_ascii part = true) parts ->
  is_ascii (String.concat "" parts) = true.
Proof.
  induction 1 as [|part parts Hpart _ IH]; [reflexivity|].
  destruct parts as [|part' parts]; [exact Hpart|].
  change (String.concat "" (part :: part' :: parts))
    with (part +:+ "" +:+ String.concat "" (part' :: parts)).
  now rewrite !is_ascii_app, Hpart, IH.
Qed.

Lemma is_ascii_join (sep : string) (parts : list string) :
  is_ascii sep = true ->
  Forall (fun part => is_ascii part = true) parts ->
  is_ascii (str_join sep parts) = true.
Proof.
  intros Hsep. induction 1 as [|part parts Hpart _ IH]; [reflexivity|].
  destruct parts as [|part' parts]; [exact Hpart|].
  change (str_join sep (part :: part' :: parts))
    with (part +:+ sep +:+ str_join sep (part' :: parts)).
  now rewrite !is_ascii_app, Hpart, Hsep, IH.
Qed.

Lemma json_char_ascii (ch : ascii) : is_ascii (json_char ch) = true.
Proof. destruct ch as [[] [] [] [] [] [] [] []]; vm_compute; reflexivity. Qed.

Lemma json_str_ascii (s : string) : is_ascii (json_str s) = true.
Proof.
  unfold json_str.
  change (String dquote ?t) with (String dquote "" +:+ t).
  rewrite !is_ascii_app, is_ascii_concat; [reflexivity|].
  induction (list_ascii_of_string s) as [|ch l IH]; constructor;
    [apply json_char_ascii | exact IH].
Qed.

Lemma uint_ascii (d : Decimal.uint) :
  is_ascii (NilEmpty.string_of_uint d) = true.
Proof. induction d; try reflexivity; exact IHd. Qed.

Lemma int_repr_ascii (n : Z) : is_ascii (int_repr n) = true.
Proof.
  assert (Huint : forall d, is_ascii (NilZero.string_of_uint d) = true).
  { intros d. destruct d; first [reflexivity | apply uint_ascii]. }
  unfold int_repr, NilZero.string_of_int.
  destruct (Z.to_int n) as [d|d]; [apply Huint|].
  change (String "-" ?t) with ("-" +:+ t). now rewrite is_ascii_app, Huint.
Qed.

Lemma newline_indent_ascii (level : nat) : is_ascii (newline_indent level) = true.
Proof.
  unfold newline_indent. change (String "010" ?t) with (String "010" "" +:+ t).
  rewrite is_ascii_app. induction level as [|level IH]; [reflexivity|].
  cbn [str_repeat]. now rewrite is_ascii_app, andb_assoc.
Qed.

(** Where a list of outcomes is a list of values, each of them is one
    that its item gave. *)
Lemma traverse_Forall {A B : Type} (f : A -> outcome B) (P : B -> Prop)
    (l : list A) (ys : list B) :
  Forall (fun x => forall y, f x = inr y -> P y) l ->
  traverse f l = inr ys -> Forall P ys.
Proof.
  intros Hl. revert ys. induction Hl as [|x l Hx _ IH]; intros ys.
  - intros [= <-]. constructor.
  - rewrite traverse_cons. destruct (f x) as [e|y]; [discriminate|].
    destruct (traverse f l) as [e|ys']; [discriminate|].
    intros [= <-]. constructor; [now apply Hx | now apply IH].
Qed.

(** What [json.dumps] returns has no character outside ASCII, whatever
    the strings inside the value. *)
Lemma json_encode_ascii (v : value) (level : nat) (s : string) :
  json_encode level v = inr s -> is_ascii s = true.
Proof.
  revert level s.
  induction v as [|[|]|n|t|items IH|entries IH|cls truth text]
    using value_nested_ind; intros level s; cbn [json_encode].
  - now intros [= <-].
  - now intros [= <-].
  - now intros [= <-].
  - intros [= <-]. apply int_repr_ascii.
  - intros [= <-]. apply json_str_ascii.
  - destruct items as [|x items]; [now intros [= <-]|].
    destruct (traverse _ (x :: items)) as [e|chunks] eqn:Htraverse;
      [discriminate|].
    intros Hs. apply (inj inr) in Hs. subst s.
    rewrite !is_ascii_app, !newline_indent_ascii, is_ascii_join; [reflexivity|..].
    + now rewrite is_ascii_app, newline_indent_ascii.
    + eapply traverse_Forall; [|exact Htraverse].
      eapply Forall_impl; [exact IH|]. intros y Hy chunk. apply Hy.
  - destruct entries as [|item entries]; [now intros [= <-]|].
    destruct (traverse _ (item :: entries)) as [e|chunks] eqn:Htraverse;
      [discriminate|].
    intros Hs. apply (inj inr) in Hs. subst s.
    rewrite !is_ascii_app, !newline_indent_ascii, is_ascii_join; [reflexivity|..].
    + now rewrite is_ascii_app, newline_indent_ascii.
    + eapply traverse_Forall; [|exact Htraverse].
      eapply Forall_impl; [exact IH|]. intros [k y] Hy chunk. cbn [snd] in Hy.
      unfold json_item.
      destruct (json_encode (S level) y) as [e|chunk'] eqn:Hchunk; [discriminate|].
      intros Hs. apply (inj inr) in Hs. subst chunk.
      rewrite !is_ascii_app, json_str_ascii.
      now rewrite (Hy (S level) chunk' Hchunk).
  - discriminate.
Qed.

Lemma ascii_byte (ch : ascii) :
  (N_of_ascii ch <? 128)%N = true ->
  (Byte.to_N (byte_of_ascii ch) <? 128)%N = true.
Proof. destruct ch as [[] [] [] [] [] [] [] []]; vm_compute; auto. Qed.

(** The UTF-8 encoding of an ASCII string: one byte below 128 for each
    character. *)
Lemma encode_utf8_ascii (s : string) :
  is_ascii s = true ->
  encode_utf8 s = map byte_of_ascii (list_ascii_of_string s)
  /\ Forall (fun b => (Byte.to_N b < 128)%N) (encode_utf8 s).
Proof.
  unfold is_ascii, encode_utf8.
  induction (list_ascii_of_string s) as [|ch l IH]; cbn [forallb flat_map map].
  - intros _. split; [reflexivity | constructor].
  - intros [Hch Hl]%andb_true_iff. destruct (IH Hl) as [-> Hbytes].
    unfold utf8_char. rewrite Hch. cbn [app]. split; [reflexivity|].
    constructor; [|exact Hbytes]. now apply N.ltb_lt, ascii_byte.
Qed.

(** Whatever the tool and whatever text the result holds, the bytes of
    the blob of a response are all below 128, one byte for each
    character of the serialization: [json.dumps] escapes every other
    character, so the UTF-8 encoding adds nothing. *)
Theorem blob_is_ascii {W : Type} (c : collaborators W) (w w' : W)
    (name : string) (arguments : gmap string value) (calls : list event)
    (response : mcp_types.ToolResponse) :
  run c (call_tool name arguments) w = (w', calls, inr response) ->
  exists (text : mcp_types.Content) (payload media_type filename : string),
    mcp_types.content response
    = [text; mcp_types.BlobContent (encode_utf8 payload) media_type filename]
    /\ encode_utf8 payload = map byte_of_ascii (list_ascii_of_string payload)
    /\ Forall (fun b => (Byte.to_N b < 128)%N) (encode_utf8 payload).
Proof.
  intros Hrun.
  destruct (String.eqb_spec name "travel.plan_trip") as [->|Hplan];
    [|destruct (String.eqb_spec name "travel.search_flights") as [->|Hsearch]].
  - destruct (plan_trip_success c w w' arguments calls response Hrun)
      as (question & result & payload & _ & _ & _ & Hdumps & ->).
    exists (mcp_types.TextContent
              (py_or (dict_get result "final_answer")
                     (VStr "No response produced."))),
           payload, "application/json", "plan_trip.json".
    split; [reflexivity|]. apply encode_utf8_ascii.
    now apply (json_encode_ascii (VDict result) 0).
  - destruct (search_flights_success c w w' arguments calls response Hrun)
      as (origin & destination & results & query & payload
          & _ & _ & _ & _ & _ & Hdumps & ->).
    exists (mcp_types.TextContent
              (VStr ("Flight SERP query executed: " +:+ query))),
           payload, "application/json", "flight_search.json".
    split; [reflexivity|]. apply encode_utf8_ascii.
    now apply (json_encode_ascii
                 (VDict [("query", VStr query); ("results", results)]) 0).
  - rewrite (call_tool_other_name name arguments Hplan Hsearch) in Hrun.
    discriminate Hrun.
Qed.

Lemma blob_is_ascii_witness :
  exists (text : mcp_types.Content) (payload media_type filename : string),
    mcp_types.content cafe_response
    = [text; mcp_types.BlobContent (encode_utf8 payload) media_type filename]
    /\ encode_utf8 payload = map byte_of_ascii (list_ascii_of_string payload)
    /\ Forall (fun b => (Byte.to_N b < 128)%N) (encode_utf8 payload).
Proof.
  apply (blob_is_ascii counting 0 1 "travel.plan_trip" cafe_arguments
           [InvokeCall
              (_default_state
                 (VStr (String "C" (String "a" (String "f" (String "233" ""))))))]
           cafe_response).
  vm_compute. reflexivity.
Defined.
